(** * Attendance tracker: distance classifier and attendance ledger

    A shallow embedding of [src/pages/Attendance.tsx] (the [Attendance]
    and [History] components) and of its later revision with the camera
    sheet.

    Numbers.  JavaScript numbers that hold coordinates and angles are
    modelled as real numbers ([R]): arithmetic is exact, and the only
    non-finite value that the code could produce, [NaN] out of
    [Math.sqrt] on a negative argument, is modelled by [None].
    Timestamps ([Date.now()]) and rounded distances are integers ([Z]). *)

From Stdlib Require Import Reals Lra Lia ZArith List String Bool.
From Stdlib Require Import Permutation Sorted Machin DecimalString.
Import ListNotations.

Local Open Scope R_scope.

(** ** Distance classifier *)

Record Coord : Type := mkCoord { latitude : R; longitude : R }.

(** [const OFFICE_LOCATION = { latitude: 40.7128, longitude: -74.0060 }] *)
Definition OFFICE_LOCATION : Coord :=
  {| latitude := 407128 / 10000; longitude := - (740060 / 10000) |}.

(** [const MAX_DISTANCE = 100] *)
Definition MAX_DISTANCE : Z := 100.

(** [Math.sqrt]: [NaN] (here [None]) on a negative argument. *)
Definition Math_sqrt (x : R) : option R :=
  if Rlt_dec x 0 then None else Some (sqrt x).

(** [Math.atan2(y, x)], the angle of the point [(x, y)] in [(-PI, PI]]. *)
Definition Math_atan2 (y x : R) : R :=
  if Rlt_dec 0 x then atan (y / x)
  else if Rlt_dec x 0 then
    if Rlt_dec y 0 then atan (y / x) - PI else atan (y / x) + PI
  else if Rlt_dec 0 y then PI / 2
  else if Rlt_dec y 0 then - (PI / 2)
  else 0.

(** [Math.round]: the nearest integer, halves rounded up. *)
Definition Math_round (x : R) : Z := Zfloor (x + / 2).

(** The value [a] of [calculateDistance]. *)
Definition haversine_a (lat1 lon1 lat2 lon2 : R) : R :=
  let phi1 := (lat1 * PI) / 180 in
  let phi2 := (lat2 * PI) / 180 in
  let dphi := ((lat2 - lat1) * PI) / 180 in
  let dlam := ((lon2 - lon1) * PI) / 180 in
  sin (dphi / 2) * sin (dphi / 2) +
  cos phi1 * cos phi2 * sin (dlam / 2) * sin (dlam / 2).

(** The value [c] of [calculateDistance]. *)
Definition haversine_c (lat1 lon1 lat2 lon2 : R) : option R :=
  let a := haversine_a lat1 lon1 lat2 lon2 in
  match Math_sqrt a, Math_sqrt (1 - a) with
  | Some s, Some t => Some (2 * Math_atan2 s t)
  | _, _ => None
  end.

(** [calculateDistance(lat1, lon1, lat2, lon2)]; [None] stands for [NaN]. *)
Definition calculateDistance (lat1 lon1 lat2 lon2 : R) : option Z :=
  let R := 6371000 in
  match haversine_c lat1 lon1 lat2 lon2 with
  | Some c =>
      let distance := R * c in
      Some (Math_round distance)
  | None => None
  end.

(** [dist <= MAX_DISTANCE]; a comparison with [NaN] is [false]. *)
Definition withinThreshold (dist : option Z) : bool :=
  match dist with
  | Some d => (d <=? MAX_DISTANCE)%Z
  | None => false
  end.

(** ** Attendance records *)

(** ["check-in" | "check-out"] *)
Inductive RecordType : Type := check_in | check_out.

(** ["present" | "absent"] *)
Inductive Status : Type := present | absent.

(** The optional [photoUrl]: left [undefined] when the camera is off,
    [null] when [capturePhoto] fails, a data URL otherwise. *)
Inductive PhotoUrl : Type :=
| photo_undefined
| photo_null
| photo_data (url : string).

Record AttendanceRecord : Type := mkRecord {
  id : string;
  timestamp : Z;
  type : RecordType;
  status : Status;
  location : Coord;
  photoUrl : PhotoUrl
}.

Record User : Type := mkUser { user_id : string; name : string }.

Definition RecordType_eqb (a b : RecordType) : bool :=
  match a, b with
  | check_in, check_in | check_out, check_out => true
  | _, _ => false
  end.

(** ** State of the page

    [Component] holds the [useState] cells of [Attendance]; [Browser]
    holds what lives outside the component: the two [localStorage]
    entries (stored as the values that [JSON.parse] gives back), the
    stream attached to the video element, the notices shown so far
    (newest first) and the last route passed to [navigate]. *)

Inductive ToastKind : Type := toast_error | toast_success | toast_warning.

Record Component : Type := mkComponent {
  currentUser : option User;
  currentLocation : option Coord;
  distance : option (option Z);
  isWithinOffice : option bool;
  isLoading : bool;
  hasCheckedIn : bool;
  attendanceRecords : list AttendanceRecord;
  isCameraActive : bool;
  cameraError : option string;
  isSheetOpen : bool
}.

Record Browser : Type := mkBrowser {
  localUser : option User;
  localRecords : option (list AttendanceRecord);
  srcObject : bool;
  toasts : list (ToastKind * string);
  path : option string
}.

Record World : Type := mkWorld { comp : Component; browser : Browser }.

(** The [useState] setters. *)

Definition setCurrentUser (v : option User) (c : Component) : Component :=
  {|
     currentUser := v;
     currentLocation := currentLocation c;
     distance := distance c;
     isWithinOffice := isWithinOffice c;
     isLoading := isLoading c;
     hasCheckedIn := hasCheckedIn c;
     attendanceRecords := attendanceRecords c;
     isCameraActive := isCameraActive c;
     cameraError := cameraError c;
     isSheetOpen := isSheetOpen c
  |}.

Definition setCurrentLocation (v : option Coord) (c : Component) : Component :=
  {|
     currentUser := currentUser c;
     currentLocation := v;
     distance := distance c;
     isWithinOffice := isWithinOffice c;
     isLoading := isLoading c;
     hasCheckedIn := hasCheckedIn c;
     attendanceRecords := attendanceRecords c;
     isCameraActive := isCameraActive c;
     cameraError := cameraError c;
     isSheetOpen := isSheetOpen c
  |}.

Definition setDistance (v : option (option Z)) (c : Component) : Component :=
  {|
     currentUser := currentUser c;
     currentLocation := currentLocation c;
     distance := v;
     isWithinOffice := isWithinOffice c;
     isLoading := isLoading c;
     hasCheckedIn := hasCheckedIn c;
     attendanceRecords := attendanceRecords c;
     isCameraActive := isCameraActive c;
     cameraError := cameraError c;
     isSheetOpen := isSheetOpen c
  |}.

Definition setIsWithinOffice (v : option bool) (c : Component) : Component :=
  {|
     currentUser := currentUser c;
     currentLocation := currentLocation c;
     distance := distance c;
     isWithinOffice := v;
     isLoading := isLoading c;
     hasCheckedIn := hasCheckedIn c;
     attendanceRecords := attendanceRecords c;
     isCameraActive := isCameraActive c;
     cameraError := cameraError c;
     isSheetOpen := isSheetOpen c
  |}.

Definition setIsLoading (v : bool) (c : Component) : Component :=
  {|
     currentUser := currentUser c;
     currentLocation := currentLocation c;
     distance := distance c;
     isWithinOffice := isWithinOffice c;
     isLoading := v;
     hasCheckedIn := hasCheckedIn c;
     attendanceRecords := attendanceRecords c;
     isCameraActive := isCameraActive c;
     cameraError := cameraError c;
     isSheetOpen := isSheetOpen c
  |}.

Definition setHasCheckedIn (v : bool) (c : Component) : Component :=
  {|
     currentUser := currentUser c;
     currentLocation := currentLocation c;
     distance := distance c;
     isWithinOffice := isWithinOffice c;
     isLoading := isLoading c;
     hasCheckedIn := v;
     attendanceRecords := attendanceRecords c;
     isCameraActive := isCameraActive c;
     cameraError := cameraError c;
     isSheetOpen := isSheetOpen c
  |}.

Definition setAttendanceRecords (v : list AttendanceRecord) (c : Component) : Component :=
  {|
     currentUser := currentUser c;
     currentLocation := currentLocation c;
     distance := distance c;
     isWithinOffice := isWithinOffice c;
     isLoading := isLoading c;
     hasCheckedIn := hasCheckedIn c;
     attendanceRecords := v;
     isCameraActive := isCameraActive c;
     cameraError := cameraError c;
     isSheetOpen := isSheetOpen c
  |}.

Definition setIsCameraActive (v : bool) (c : Component) : Component :=
  {|
     currentUser := currentUser c;
     currentLocation := currentLocation c;
     distance := distance c;
     isWithinOffice := isWithinOffice c;
     isLoading := isLoading c;
     hasCheckedIn := hasCheckedIn c;
     attendanceRecords := attendanceRecords c;
     isCameraActive := v;
     cameraError := cameraError c;
     isSheetOpen := isSheetOpen c
  |}.

Definition setCameraError (v : option string) (c : Component) : Component :=
  {|
     currentUser := currentUser c;
     currentLocation := currentLocation c;
     distance := distance c;
     isWithinOffice := isWithinOffice c;
     isLoading := isLoading c;
     hasCheckedIn := hasCheckedIn c;
     attendanceRecords := attendanceRecords c;
     isCameraActive := isCameraActive c;
     cameraError := v;
     isSheetOpen := isSheetOpen c
  |}.

Definition setIsSheetOpen (v : bool) (c : Component) : Component :=
  {|
     currentUser := currentUser c;
     currentLocation := currentLocation c;
     distance := distance c;
     isWithinOffice := isWithinOffice c;
     isLoading := isLoading c;
     hasCheckedIn := hasCheckedIn c;
     attendanceRecords := attendanceRecords c;
     isCameraActive := isCameraActive c;
     cameraError := cameraError c;
     isSheetOpen := v
  |}.

(** Writes to the browser side. *)

Definition storeUser (v : option User) (c : Browser) : Browser :=
  {|
     localUser := v;
     localRecords := localRecords c;
     srcObject := srcObject c;
     toasts := toasts c;
     path := path c
  |}.

Definition storeRecords (v : option (list AttendanceRecord)) (c : Browser) : Browser :=
  {|
     localUser := localUser c;
     localRecords := v;
     srcObject := srcObject c;
     toasts := toasts c;
     path := path c
  |}.

Definition setSrcObject (v : bool) (c : Browser) : Browser :=
  {|
     localUser := localUser c;
     localRecords := localRecords c;
     srcObject := v;
     toasts := toasts c;
     path := path c
  |}.

Definition setToasts (v : list (ToastKind * string)) (c : Browser) : Browser :=
  {|
     localUser := localUser c;
     localRecords := localRecords c;
     srcObject := srcObject c;
     toasts := v;
     path := path c
  |}.

Definition setPath (v : option string) (c : Browser) : Browser :=
  {|
     localUser := localUser c;
     localRecords := localRecords c;
     srcObject := srcObject c;
     toasts := toasts c;
     path := v
  |}.

Definition onComp (f : Component -> Component) (w : World) : World :=
  {| comp := f (comp w); browser := browser w |}.

Definition onBrowser (f : Browser -> Browser) (w : World) : World :=
  {| comp := comp w; browser := f (browser w) |}.

(** [toast.error(msg)], [toast.success(msg)], [toast.warning(msg)] *)
Definition toast (k : ToastKind) (msg : string) (w : World) : World :=
  onBrowser (fun b => setToasts ((k, msg) :: toasts b) b) w.

(** [navigate(p)] *)
Definition navigate (p : string) (w : World) : World :=
  onBrowser (setPath (Some p)) w.

(** The component before its first effect: every [useState] default. *)
Definition initialComponent : Component :=
  {| currentUser := None;
     currentLocation := None;
     distance := None;
     isWithinOffice := None;
     isLoading := false;
     hasCheckedIn := false;
     attendanceRecords := [];
     isCameraActive := false;
     cameraError := None;
     isSheetOpen := false |}.

(** Truthiness of [isWithinOffice : boolean | null]. *)
Definition truthy (o : option bool) : bool :=
  match o with
  | Some true => true
  | _ => false
  end.

(** Truthiness of a photo URL: [undefined], [null] and the empty string
    are falsy. *)
Definition photo_truthy (p : PhotoUrl) : bool :=
  match p with
  | photo_data u => negb (String.eqb u EmptyString)
  | _ => false
  end.

(** [capturePhoto()]: [shot] is the data URL that the canvas yields, or
    [None] when a ref or the 2d context is missing (in the revision, also
    when drawing throws). *)
Definition capturePhoto (shot : option string) : PhotoUrl :=
  match shot with
  | Some u => photo_data u
  | None => photo_null
  end.

(** The two revisions of the [Attendance] component: the one of
    [src/pages/Attendance.tsx], and the later one with the camera sheet. *)
Inductive Revision : Type := Original | Sheet.

(** ** The [Attendance] component *)

Section AttendancePage.

(** [new Date(t).toDateString()], which depends on the local time zone. *)
Variable toDateString : Z -> string.

(** [getCurrentLocation()]: [geo] tells whether [navigator.geolocation]
    exists.  When it does, the answer arrives later through [onPosition]
    or [onPositionError]. *)
Definition getCurrentLocation (geo : bool) (w : World) : World :=
  let w := onComp (setIsLoading true) w in
  if geo then w
  else
    let w := toast toast_error "Geolocation is not supported by your browser" w in
    onComp (setIsLoading false) w.

(** Success callback of [getCurrentPosition]. *)
Definition onPosition (lat lon : R) (w : World) : World :=
  let w := onComp (setCurrentLocation (Some (mkCoord lat lon))) w in
  let dist :=
    calculateDistance lat lon
      (latitude OFFICE_LOCATION) (longitude OFFICE_LOCATION) in
  let w := onComp (setDistance (Some dist)) w in
  let w := onComp (setIsWithinOffice (Some (withinThreshold dist))) w in
  onComp (setIsLoading false) w.

(** Error callback of [getCurrentPosition]. *)
Definition onPositionError (w : World) : World :=
  let w :=
    toast toast_error
      "Failed to get your location. Please enable location services." w in
  onComp (setIsLoading false) w.

(** The filter of the mount effect: the user's check-ins of today. *)
Definition isTodaysCheckIn (u : User) (today : string) (r : AttendanceRecord)
  : bool :=
  String.eqb (id r) (user_id u)
  && String.eqb (toDateString (timestamp r)) today
  && RecordType_eqb (type r) check_in.

(** The mount effect ([useEffect]); [now] is the clock at that moment. *)
Definition useEffect (now : Z) (geo : bool) (w : World) : World :=
  match localUser (browser w) with
  | None => navigate "/" w
  | Some u =>
      let w := onComp (setCurrentUser (Some u)) w in
      let w :=
        match localRecords (browser w) with
        | Some records =>
            let w := onComp (setAttendanceRecords records) w in
            let today := toDateString now in
            let userRecords := filter (isTodaysCheckIn u today) records in
            onComp (setHasCheckedIn (0 <? List.length userRecords)%nat) w
        | None => w
        end in
      getCurrentLocation geo w
  end.

(** [stopCamera()]; [srcObject] is true when the video element exists
    and has a stream. *)
Definition stopCamera (w : World) : World :=
  if srcObject (browser w) then
    let w := onBrowser (setSrcObject false) w in
    onComp (setIsCameraActive false) w
  else w.

(** [startCamera()]: [video] tells whether [videoRef.current] exists,
    [media] is [None] when [getUserMedia] grants a stream and the error
    message when it rejects. *)
Definition startCamera (v : Revision) (video : bool) (media : option string)
  (w : World) : World :=
  match v with
  | Original =>
      if video then
        match media with
        | None =>
            let w := onBrowser (setSrcObject true) w in
            onComp (setIsCameraActive true) w
        | Some _ =>
            toast toast_error
              "Failed to access camera. Please check your permissions." w
        end
      else w
  | Sheet =>
      let w := onComp (setCameraError None) w in
      if video then
        match media with
        | None =>
            let w := onBrowser (setSrcObject true) w in
            let w := onComp (setIsCameraActive true) w in
            toast toast_success "Camera access granted" w
        | Some errorMessage =>
            let w :=
              onComp (setCameraError
                        (Some ("Camera access denied: " ++ errorMessage)%string))
                w in
            toast toast_error
              "Failed to access camera. Please check your permissions." w
        end
      else w
  end.

(** The status written into a new record:
    [isWithinOffice ? "present" : "absent"]. *)
Definition statusOf (within : option bool) : Status :=
  if truthy within then present else absent.

(** [handleAttendance(type)] of [src/pages/Attendance.tsx]; [now] is
    [Date.now()] and [shot] what the canvas yields.  The values read from
    the render ([currentUser], [attendanceRecords], ...) are those of the
    state the handler is called in. *)
Definition handleAttendance (ty : RecordType) (now : Z) (shot : option string)
  (w : World) : World :=
  let c := comp w in
  match currentUser c, currentLocation c with
  | Some user, Some loc =>
      let photo := if isCameraActive c then capturePhoto shot
                   else photo_undefined in
      let w := if isCameraActive c then stopCamera w else w in
      let newRecord :=
        {| id := user_id user;
           timestamp := now;
           type := ty;
           status := statusOf (isWithinOffice c);
           location := loc;
           photoUrl := photo |} in
      let updatedRecords := attendanceRecords c ++ [newRecord] in
      let w := onComp (setAttendanceRecords updatedRecords) w in
      let w := onBrowser (storeRecords (Some updatedRecords)) w in
      match ty with
      | check_in =>
          let w := onComp (setHasCheckedIn true) w in
          if truthy (isWithinOffice c)
          then toast toast_success "You have been marked present" w
          else toast toast_warning
                 "You are outside the office. Marked as absent." w
      | check_out =>
          let w := onComp (setHasCheckedIn false) w in
          toast toast_success "You have checked out successfully" w
      end
  | _, _ => w
  end.

(** [handleAttendance(type)] of the revision with the camera sheet. *)
Definition handleAttendance_sheet (ty : RecordType) (now : Z)
  (shot : option string) (w : World) : World :=
  let c := comp w in
  match currentUser c, currentLocation c with
  | Some user, Some loc =>
      let photo := if isCameraActive c then capturePhoto shot
                   else photo_undefined in
      let w :=
        if isCameraActive c then
          if photo_truthy photo then w
          else toast toast_warning
                 "Could not capture photo, but proceeding with attendance" w
        else toast toast_warning
               "No photo will be taken as camera is not active" w in
      let newRecord :=
        {| id := user_id user;
           timestamp := now;
           type := ty;
           status := statusOf (isWithinOffice c);
           location := loc;
           photoUrl := photo |} in
      let updatedRecords := attendanceRecords c ++ [newRecord] in
      let w := onComp (setAttendanceRecords updatedRecords) w in
      let w := onBrowser (storeRecords (Some updatedRecords)) w in
      let w := onComp (setIsSheetOpen false) w in
      let w := stopCamera w in
      match ty with
      | check_in =>
          let w := onComp (setHasCheckedIn true) w in
          if truthy (isWithinOffice c)
          then toast toast_success "You have been marked present" w
          else toast toast_warning
                 "You are outside the office. Marked as absent." w
      | check_out =>
          let w := onComp (setHasCheckedIn false) w in
          toast toast_success "You have checked out successfully" w
      end
  | _, _ => toast toast_error "User information or location not available" w
  end.

(** [handleLogout()] *)
Definition handleLogout (v : Revision) (w : World) : World :=
  let w := match v with Original => w | Sheet => stopCamera w end in
  let w := onBrowser (storeUser None) w in
  navigate "/" w.

(** [viewHistory()] *)
Definition viewHistory (v : Revision) (w : World) : World :=
  let w := match v with Original => w | Sheet => stopCamera w end in
  navigate "/history" w.

(** What can happen to a mounted page. *)
Inductive Event : Type :=
| EvPosition (lat lon : R)
| EvPositionError
| EvRefreshLocation (geo : bool)
| EvStartCamera (video : bool) (media : option string)
| EvStopCamera
| EvAttendance (ty : RecordType) (now : Z) (shot : option string)
| EvLogout
| EvViewHistory
| EvRemount (now : Z) (geo : bool).

(** A fresh instance of the component over the browser [b], with its
    mount effect run. *)
Definition mount (b : Browser) (now : Z) (geo : bool) : World :=
  useEffect now geo {| comp := initialComponent; browser := b |}.

Definition step (v : Revision) (w : World) (e : Event) : World :=
  match e with
  | EvPosition lat lon => onPosition lat lon w
  | EvPositionError => onPositionError w
  | EvRefreshLocation geo => getCurrentLocation geo w
  | EvStartCamera video media => startCamera v video media w
  | EvStopCamera => stopCamera w
  | EvAttendance ty now shot =>
      match v with
      | Original => handleAttendance ty now shot w
      | Sheet => handleAttendance_sheet ty now shot w
      end
  | EvLogout => handleLogout v w
  | EvViewHistory => viewHistory v w
  | EvRemount now geo =>
      let w := match v with Original => w | Sheet => stopCamera w end in
      mount (browser w) now geo
  end.

(** The states a page can be in: mounted over any browser content, then
    driven by events. *)
Inductive reachable (v : Revision) : World -> Prop :=
| reach_mount (b : Browser) (now : Z) (geo : bool) :
    reachable v (mount b now geo)
| reach_step (w : World) (e : Event) :
    reachable v w -> reachable v (step v w e).

(** A run of events, oldest first. *)
Definition run (v : Revision) (w : World) (es : list Event) : World :=
  fold_left (step v) es w.

End AttendancePage.

(** The persisted ledger: the [attendanceRecords] entry of
    [localStorage], empty when the entry is absent. *)
Definition ledger (b : Browser) : list AttendanceRecord :=
  match localRecords b with
  | Some records => records
  | None => []
  end.

(** ** Invariants of the page *)

(** The three cells written together by the position callback agree:
    the distance and the flag are those of the location on display. *)
Definition location_consistent (c : Component) : Prop :=
  match currentLocation c with
  | Some loc =>
      let dist :=
        calculateDistance (latitude loc) (longitude loc)
          (latitude OFFICE_LOCATION) (longitude OFFICE_LOCATION) in
      distance c = Some dist /\ isWithinOffice c = Some (withinThreshold dist)
  | None => distance c = None /\ isWithinOffice c = None
  end.

(** While a user is logged in, the component's copy of the records is
    the persisted ledger. *)
Definition ledger_in_sync (w : World) : Prop :=
  currentUser (comp w) <> None ->
  attendanceRecords (comp w) = ledger (browser w).

(** ** The [History] component *)

(** The mount effect of [History]: the records of the stored user. *)
Definition History_userRecords (b : Browser) : list AttendanceRecord :=
  match localUser b with
  | None => []
  | Some u =>
      match localRecords b with
      | Some records =>
          filter (fun r => String.eqb (id r) (user_id u)) records
      | None => []
      end
  end.

(** The comparator [(a, b) => b.timestamp - a.timestamp]. *)
Definition byTimestampDesc (a b : AttendanceRecord) : Z :=
  (timestamp b - timestamp a)%Z.

(** [Array.prototype.sort(compareFn)] is a stable sort: [a] comes before
    [b] when [compareFn(a, b) < 0], and elements that compare equal keep
    their order.  [insert] puts [x], which precedes all of [l] in the
    array, in front of the first element it does not have to follow. *)
Fixpoint insert {A : Type} (compareFn : A -> A -> Z) (x : A) (l : list A)
  : list A :=
  match l with
  | [] => [x]
  | y :: l' =>
      if (compareFn x y <=? 0)%Z then x :: l
      else y :: insert compareFn x l'
  end.

Definition Array_sort {A : Type} (compareFn : A -> A -> Z) (l : list A)
  : list A :=
  fold_right (insert compareFn) [] l.

(** [a] may stand above [b] in the table: it is not older. *)
Definition notOlder (a b : AttendanceRecord) : Prop :=
  (timestamp b <= timestamp a)%Z.

(** The rows of the history table, top to bottom. *)
Definition History_rows (b : Browser) : list AttendanceRecord :=
  Array_sort byTimestampDesc (History_userRecords b).

(** ** Reference definitions, following the specification's words *)



(** [hasOpenCheckIn(userId, date)]: the most recent record of that user
    on that date is a check-in (so no check-out follows it). *)
Definition spec_hasOpenCheckIn (toDateString : Z -> string)
  (userId date : string) (records : list AttendanceRecord) : bool :=
  let mine :=
    filter (fun r => String.eqb (id r) userId
                     && String.eqb (toDateString (timestamp r)) date)
      records in
  match rev mine with
  | r :: _ => RecordType_eqb (type r) check_in
  | [] => false
  end.

(** ** A time zone for the examples

    [utcDateString] names a day by its index since the epoch, in UTC. *)
Definition utcDateString (t : Z) : string :=
  DecimalString.NilZero.string_of_int (Z.to_int (t / 86400000)).

(** The events that may write a location, a record or a fresh
    component; the others leave all of these alone. *)
Definition touchesLedgerOrLocation (e : Event) : bool :=
  match e with
  | EvPosition _ _ | EvAttendance _ _ _ | EvRemount _ _ => true
  | _ => false
  end.

(** ** Data for the examples *)

Definition alice : User := {| user_id := "U1"; name := "Alice" |}.

(** A browser that holds the given [localStorage] entries, with no
    camera stream, no notice and no navigation yet. *)
Definition browserOf (u : option User)
  (records : option (list AttendanceRecord)) : Browser :=
  {| localUser := u;
     localRecords := records;
     srcObject := false;
     toasts := [];
     path := None |}.

(** Three instants of one UTC day (day 20000 since the epoch). *)
Definition morning : Z := 1728032400000.
Definition evening : Z := 1728061200000.
Definition night : Z := 1728068400000.

Definition recordOf (userId : string) (t : Z) (ty : RecordType)
  : AttendanceRecord :=
  {| id := userId;
     timestamp := t;
     type := ty;
     status := present;
     location := OFFICE_LOCATION;
     photoUrl := photo_undefined |}.

(** A page freshly opened by [alice] in the morning over an empty
    [localStorage], before any position has arrived. *)
Definition lobby : World :=
  mount utcDateString (browserOf (Some alice) None) morning true.

(** The same page once the position of the office itself has arrived. *)
Definition atDesk : World :=
  onPosition (latitude OFFICE_LOCATION) (longitude OFFICE_LOCATION) lobby.

(** A full day of [alice]: a check-in in the morning and a check-out in
    the evening. *)
Definition afterWork (v : Revision) : World :=
  run utcDateString v atDesk
    [EvAttendance check_in morning None; EvAttendance check_out evening None].

(** A page opened by [alice] in the evening of a day on which her
    check-in of the morning is already stored, at the office. *)
Definition checkedInPage : World :=
  onPosition (latitude OFFICE_LOCATION) (longitude OFFICE_LOCATION)
    (mount utcDateString
       (browserOf (Some alice) (Some [recordOf "U1" morning check_in]))
       evening true).

(** ** What the rendered page offers *)






(** [{isCameraActive ? <video ref={videoRef} ... /> : ...}]: the video
    element, and with it [videoRef.current], is there only while
    [isCameraActive]. *)
Definition videoRendered (c : Component) : bool := isCameraActive c.


Definition isAttendance (e : Event) : bool :=
  match e with
  | EvAttendance _ _ _ => true
  | _ => false
  end.


(** A run in which [startCamera] finds [videoRef.current] exactly when
    the video element is rendered. *)
Fixpoint refsFollowRender (toDateString : Z -> string) (v : Revision)
  (w : World) (es : list Event) : bool :=
  match es with
  | [] => true
  | e :: es' =>
      match e with
      | EvStartCamera video _ => Bool.eqb video (videoRendered (comp w))
      | _ => true
      end
      && refsFollowRender toDateString v (step toDateString v w e) es'
  end.


(** * Properties *)

(** *** Facts on the haversine value *)

Lemma sin_sqr_range (x : R) : 0 <= sin x * sin x <= 1.
Proof.
  pose proof (sin2_cos2 x) as H. unfold Rsqr in H.
  split; nra.
Qed.

Lemma cos_sqr_range (x : R) : 0 <= cos x * cos x <= 1.
Proof.
  pose proof (sin2_cos2 x) as H. unfold Rsqr in H.
  split; nra.
Qed.

(** [sin^2((q - p)/2) + cos p * cos q = cos^2((p + q)/2)] *)
Lemma hav_plus_coscos (p q : R) :
  sin ((q - p) / 2) * sin ((q - p) / 2) + cos p * cos q =
  cos ((p + q) / 2) * cos ((p + q) / 2).
Proof.
  set (u := p / 2). set (v := q / 2).
  replace ((q - p) / 2) with (v - u) by (unfold u, v; field).
  replace ((p + q) / 2) with (u + v) by (unfold u, v; field).
  replace p with (2 * u) by (unfold u; field).
  replace q with (2 * v) by (unfold v; field).
  rewrite sin_minus, cos_plus, !cos_2a_cos.
  pose proof (sin2_cos2 u) as Hu. pose proof (sin2_cos2 v) as Hv.
  unfold Rsqr in Hu, Hv.
  nra.
Qed.

Lemma haversine_a_range (lat1 lon1 lat2 lon2 : R) :
  0 <= haversine_a lat1 lon1 lat2 lon2 <= 1.
Proof.
  unfold haversine_a; cbv zeta.
  set (p := lat1 * PI / 180). set (q := lat2 * PI / 180).
  replace ((lat2 - lat1) * PI / 180) with (q - p) by (unfold p, q; field).
  set (l := (lon2 - lon1) * PI / 180 / 2).
  pose proof (hav_plus_coscos p q) as E.
  pose proof (sin_sqr_range ((q - p) / 2)) as Hh.
  pose proof (cos_sqr_range ((p + q) / 2)) as Hc.
  pose proof (sin_sqr_range l) as Hl.
  set (h := sin ((q - p) / 2) * sin ((q - p) / 2)) in *.
  set (k := cos ((p + q) / 2) * cos ((p + q) / 2)) in *.
  set (s := sin l) in *.
  set (cc := cos p * cos q) in *.
  replace (h + cos p * cos q * s * s) with (h + cc * (s * s))
    by (unfold cc; ring).
  assert (Ecc : cc = k - h) by lra.
  rewrite Ecc. split; nra.
Qed.

Lemma Math_sqrt_nonneg (x : R) : 0 <= x -> Math_sqrt x = Some (sqrt x).
Proof.
  intros Hx. unfold Math_sqrt.
  destruct (Rlt_dec x 0) as [Hneg | _]; [lra | reflexivity].
Qed.

Lemma haversine_c_defined (lat1 lon1 lat2 lon2 : R) :
  haversine_c lat1 lon1 lat2 lon2 =
  Some (2 * Math_atan2 (sqrt (haversine_a lat1 lon1 lat2 lon2))
                       (sqrt (1 - haversine_a lat1 lon1 lat2 lon2))).
Proof.
  pose proof (haversine_a_range lat1 lon1 lat2 lon2) as [Ha0 Ha1].
  unfold haversine_c; cbv zeta.
  rewrite !Math_sqrt_nonneg by lra.
  reflexivity.
Qed.




Lemma Math_round_0 : Math_round 0 = 0%Z.
Proof.
  unfold Math_round. apply Zfloor_eq. simpl. lra.
Qed.

Lemma haversine_a_sym (lat1 lon1 lat2 lon2 : R) :
  haversine_a lat1 lon1 lat2 lon2 = haversine_a lat2 lon2 lat1 lon1.
Proof.
  unfold haversine_a; cbv zeta.
  replace ((lat1 - lat2) * PI / 180 / 2)
    with (- ((lat2 - lat1) * PI / 180 / 2)) by field.
  replace ((lon1 - lon2) * PI / 180 / 2)
    with (- ((lon2 - lon1) * PI / 180 / 2)) by field.
  rewrite !sin_neg. ring.
Qed.

Lemma haversine_a_same (lat lon : R) : haversine_a lat lon lat lon = 0.
Proof.
  unfold haversine_a; cbv zeta.
  replace ((lat - lat) * PI / 180 / 2) with 0 by field.
  replace ((lon - lon) * PI / 180 / 2) with 0 by field.
  rewrite sin_0. ring.
Qed.

Lemma calculateDistance_same (lat lon : R) :
  calculateDistance lat lon lat lon = Some 0%Z.
Proof.
  unfold calculateDistance; cbv zeta.
  rewrite haversine_c_defined, haversine_a_same.
  rewrite Rminus_0_r, sqrt_0, sqrt_1.
  unfold Math_atan2.
  destruct (Rlt_dec 0 1) as [_ | H]; [| lra].
  replace (0 / 1) with 0 by field.
  rewrite atan_0.
  replace (6371000 * (2 * 0)) with 0 by ring.
  now rewrite Math_round_0.
Qed.


(** C4: the distance does not depend on the order of the two
    coordinates, and the distance from a coordinate to itself is 0. *)
Theorem calculateDistance_symmetric_and_zero :
  (forall lat1 lon1 lat2 lon2 : R,
      calculateDistance lat1 lon1 lat2 lon2 =
      calculateDistance lat2 lon2 lat1 lon1)
  /\ (forall lat lon : R, calculateDistance lat lon lat lon = Some 0%Z).
Proof.
  split.
  - intros lat1 lon1 lat2 lon2.
    unfold calculateDistance, haversine_c; cbv zeta.
    now rewrite (haversine_a_sym lat1 lon1 lat2 lon2).
  - exact calculateDistance_same.
Qed.


(** *** The formula is the haversine formula *)




(** *** Two bounds on [PI], from the series of Machin's formula *)





(** *** The stable sort *)

Section Sorting.

Context {A : Type} (compareFn : A -> A -> Z).

Lemma insert_perm (x : A) (l : list A) :
  Permutation (insert compareFn x l) (x :: l).
Proof.
  induction l as [| y l IH]; simpl.
  - apply Permutation_refl.
  - destruct (compareFn x y <=? 0)%Z.
    + apply Permutation_refl.
    + eapply perm_trans; [apply perm_skip, IH | apply perm_swap].
Qed.

Lemma Array_sort_perm (l : list A) : Permutation (Array_sort compareFn l) l.
Proof.
  induction l as [| x l IH]; simpl.
  - apply perm_nil.
  - eapply perm_trans; [apply insert_perm | apply perm_skip, IH].
Qed.

Lemma Array_sort_In (l : list A) (x : A) :
  In x (Array_sort compareFn l) <-> In x l.
Proof.
  split; apply Permutation_in;
    [apply Array_sort_perm | apply Permutation_sym, Array_sort_perm].
Qed.

End Sorting.

Lemma insert_byTimestampDesc_sorted (x : AttendanceRecord)
  (l : list AttendanceRecord) :
  StronglySorted notOlder l ->
  StronglySorted notOlder (insert byTimestampDesc x l).
Proof.
  induction 1 as [| y l Hl IH Hy]; simpl.
  - constructor; constructor.
  - unfold byTimestampDesc at 1.
    destruct (timestamp y - timestamp x <=? 0)%Z eqn:E.
    + apply Z.leb_le in E.
      constructor; [constructor; assumption |].
      constructor; [unfold notOlder; lia |].
      rewrite Forall_forall in Hy |- *. intros z Hz.
      specialize (Hy z Hz). unfold notOlder in *. lia.
    + apply Z.leb_gt in E.
      constructor; [exact IH |].
      rewrite Forall_forall in Hy |- *. intros z Hz.
      apply (Permutation_in _ (insert_perm byTimestampDesc x l)) in Hz.
      destruct Hz as [<- | Hz]; [unfold notOlder; lia | exact (Hy z Hz)].
Qed.

Lemma Array_sort_byTimestampDesc_sorted (l : list AttendanceRecord) :
  StronglySorted notOlder (Array_sort byTimestampDesc l).
Proof.
  induction l as [| x l IH]; simpl.
  - constructor.
  - apply insert_byTimestampDesc_sorted, IH.
Qed.

(** *** The handler *)

Section PageProperties.

Variable toDateString : Z -> string.

(** What a call of the handler does when a user and a location are there,
    in either revision. *)
Lemma attendance_appends (v : Revision) (w : World) (ty : RecordType)
  (now : Z) (shot : option string) (u : User) (loc : Coord) :
  currentUser (comp w) = Some u ->
  currentLocation (comp w) = Some loc ->
  let w' := step toDateString v w (EvAttendance ty now shot) in
  exists r : AttendanceRecord,
    (id r = user_id u /\ timestamp r = now /\ type r = ty
     /\ status r = statusOf (isWithinOffice (comp w)) /\ location r = loc)
    /\ attendanceRecords (comp w') = attendanceRecords (comp w) ++ [r]
    /\ localRecords (browser w') = Some (attendanceRecords (comp w) ++ [r])
    /\ (currentUser (comp w') = Some u
        /\ currentLocation (comp w') = Some loc
        /\ distance (comp w') = distance (comp w)
        /\ isWithinOffice (comp w') = isWithinOffice (comp w)
        /\ localUser (browser w') = localUser (browser w)
        /\ hasCheckedIn (comp w') = RecordType_eqb ty check_in).
Proof.
  intros Hu Hloc w'.
  exists {| id := user_id u;
            timestamp := now;
            type := ty;
            status := statusOf (isWithinOffice (comp w));
            location := loc;
            photoUrl := if isCameraActive (comp w) then capturePhoto shot
                        else photo_undefined |}.
  split; [repeat split |].
  subst w'.
  destruct w as [[cu cl di wi lo hc ar cam ce so] [lu lr src ts pa]].
  simpl in Hu, Hloc. subst cu cl.
  destruct v, cam, src, ty, wi as [[|] |], shot as [url |];
    simpl; unfold handleAttendance, handleAttendance_sheet, stopCamera;
    simpl; try destruct (String.eqb url EmptyString);
    simpl; repeat split; reflexivity.
Qed.

(** Without a user or without a location the handler stores nothing. *)
Lemma attendance_guard (v : Revision) (w : World) (ty : RecordType)
  (now : Z) (shot : option string) :
  currentUser (comp w) = None \/ currentLocation (comp w) = None ->
  let w' := step toDateString v w (EvAttendance ty now shot) in
  comp w' = comp w
  /\ localRecords (browser w') = localRecords (browser w)
  /\ localUser (browser w') = localUser (browser w).
Proof.
  intros H w'. subst w'.
  destruct v; simpl; unfold handleAttendance, handleAttendance_sheet;
    cbv zeta; destruct (currentUser (comp w)), (currentLocation (comp w));
    destruct H as [H | H]; try discriminate H; repeat split; reflexivity.
Qed.

(** *** What each event leaves alone *)

Lemma step_frame (v : Revision) (w : World) (e : Event) :
  touchesLedgerOrLocation e = false ->
  let w' := step toDateString v w e in
  currentUser (comp w') = currentUser (comp w)
  /\ currentLocation (comp w') = currentLocation (comp w)
  /\ distance (comp w') = distance (comp w)
  /\ isWithinOffice (comp w') = isWithinOffice (comp w)
  /\ attendanceRecords (comp w') = attendanceRecords (comp w)
  /\ localRecords (browser w') = localRecords (browser w).
Proof.
  intros He w'. subst w'.
  destruct w as [c [lu lr src ts pa]].
  destruct e; try discriminate He; clear He;
    destruct v; simpl;
    unfold getCurrentLocation, startCamera, stopCamera; simpl;
    repeat match goal with
      | |- context [if ?b then _ else _] => destruct b; simpl
      | |- context [match ?m with Some _ => _ | None => _ end] =>
          destruct m; simpl
      end;
    repeat split; reflexivity.
Qed.

Lemma position_sets_location (lat lon : R) (w : World) :
  let w' := onPosition lat lon w in
  location_consistent (comp w')
  /\ currentUser (comp w') = currentUser (comp w)
  /\ attendanceRecords (comp w') = attendanceRecords (comp w)
  /\ browser w' = browser w.
Proof.
  repeat split; reflexivity.
Qed.

Lemma mount_facts (b : Browser) (now : Z) (geo : bool) :
  let w' := mount toDateString b now geo in
  location_consistent (comp w')
  /\ ledger_in_sync w'
  /\ currentUser (comp w') = localUser b
  /\ localRecords (browser w') = localRecords b
  /\ localUser (browser w') = localUser b.
Proof.
  destruct b as [lu lr src ts pa].
  unfold mount, useEffect, ledger_in_sync, location_consistent, ledger.
  destruct lu as [u |], lr as [records |], geo; simpl;
    repeat split; try reflexivity; intros H; try reflexivity;
    now contradiction H.
Qed.

Lemma stopCamera_browser (w : World) :
  localRecords (browser (stopCamera w)) = localRecords (browser w)
  /\ localUser (browser (stopCamera w)) = localUser (browser w).
Proof.
  unfold stopCamera. destruct (srcObject (browser w)); split; reflexivity.
Qed.

Lemma remount_browser (v : Revision) (w : World) (now : Z) (geo : bool) :
  let w' := step toDateString v w (EvRemount now geo) in
  localRecords (browser w') = localRecords (browser w)
  /\ location_consistent (comp w')
  /\ ledger_in_sync w'.
Proof.
  cbv zeta. unfold step.
  set (w0 := match v with Original => w | Sheet => stopCamera w end).
  pose proof (mount_facts (browser w0) now geo) as (Hl & Hs & _ & Hr & _).
  cbv zeta in Hl, Hs, Hr.
  split; [| split; assumption].
  rewrite Hr. subst w0. destruct v; [reflexivity |].
  apply stopCamera_browser.
Qed.

(** *** The invariants hold in every reachable state *)

Lemma step_invariants (v : Revision) (w : World) (e : Event) :
  location_consistent (comp w) /\ ledger_in_sync w ->
  location_consistent (comp (step toDateString v w e))
  /\ ledger_in_sync (step toDateString v w e).
Proof.
  intros [Hloc Hsync].
  destruct (touchesLedgerOrLocation e) eqn:He.
  - destruct e; try discriminate He.
    + (* a position arrives *)
      pose proof (position_sets_location lat lon w) as (Hc & Hu & Ha & Hb).
      cbv zeta in Hc, Hu, Ha, Hb.
      split; [exact Hc |].
      unfold ledger_in_sync in *. simpl step.
      rewrite Hu, Ha, Hb. exact Hsync.
    + (* an attendance action *)
      destruct (currentUser (comp w)) as [u |] eqn:Eu;
        [destruct (currentLocation (comp w)) as [loc |] eqn:El |].
      * destruct (attendance_appends v w ty now shot u loc Eu El)
          as (r & _ & Har & Hlr & Hu' & Hl' & Hd' & Hw' & _).
        split.
        -- unfold location_consistent in *.
           rewrite Hl', Hd', Hw'. now rewrite El in Hloc.
        -- unfold ledger_in_sync, ledger. intros _. now rewrite Har, Hlr.
      * destruct (attendance_guard v w ty now shot (or_intror El))
          as (Hc & Hlr & _).
        split; [now rewrite Hc |].
        unfold ledger_in_sync, ledger in *. rewrite Hc, Hlr. exact Hsync.
      * destruct (attendance_guard v w ty now shot (or_introl Eu))
          as (Hc & Hlr & _).
        split; [now rewrite Hc |].
        unfold ledger_in_sync, ledger in *. rewrite Hc, Hlr. exact Hsync.
    + (* the page is mounted again *)
      pose proof (remount_browser v w now geo) as (_ & Hl & Hs).
      split; assumption.
  - pose proof (step_frame v w e He) as (Hu & Hl & Hd & Hw & Ha & Hr).
    cbv zeta in Hu, Hl, Hd, Hw, Ha, Hr.
    split.
    + unfold location_consistent in *. now rewrite Hl, Hd, Hw.
    + unfold ledger_in_sync, ledger in *. now rewrite Hu, Ha, Hr.
Qed.

Lemma reachable_invariants (v : Revision) (w : World) :
  reachable toDateString v w ->
  location_consistent (comp w) /\ ledger_in_sync w.
Proof.
  induction 1 as [b now geo | w e _ IH].
  - pose proof (mount_facts b now geo) as (Hl & Hs & _). split; assumption.
  - apply step_invariants, IH.
Qed.

Lemma reachable_run (v : Revision) (es : list Event) (w : World) :
  reachable toDateString v w -> reachable toDateString v (run toDateString v w es).
Proof.
  revert w. induction es as [| e es IH]; intros w Hw; simpl.
  - exact Hw.
  - apply IH. now apply reach_step.
Qed.

(** *** The ledger only grows *)



(** *** The handler and the ledger *)

(** C2, as the code has it: while no location is known the handler
    stores nothing.  The component and both [localStorage] entries stay
    as they are; the first revision does nothing at all, the revision
    with the sheet only shows an error notice. *)
Theorem attendance_without_location_is_refused (v : Revision) (w : World)
  (ty : RecordType) (now : Z) (shot : option string) :
  currentLocation (comp w) = None ->
  let w' := step toDateString v w (EvAttendance ty now shot) in
  comp w' = comp w
  /\ ledger (browser w') = ledger (browser w)
  /\ handleAttendance ty now shot w = w
  /\ handleAttendance_sheet ty now shot w =
     toast toast_error "User information or location not available" w.
Proof.
  intros Hloc w'.
  destruct (attendance_guard v w ty now shot (or_intror Hloc))
    as (Hc & Hlr & _).
  fold w' in Hc, Hlr.
  split; [exact Hc |].
  split; [unfold ledger; now rewrite Hlr |].
  unfold handleAttendance, handleAttendance_sheet; cbv zeta.
  rewrite Hloc. destruct (currentUser (comp w)); split; reflexivity.
Qed.



(** C8: the handler does not look at the order of actions.  With a user
    and a location it appends a record of the requested type whatever
    [hasCheckedIn] and the ledger hold; only the buttons keep the
    order. *)
Theorem attendance_ignores_order (v : Revision) (w : World)
  (ty : RecordType) (now : Z) (shot : option string) (u : User)
  (loc : Coord) :
  currentUser (comp w) = Some u ->
  currentLocation (comp w) = Some loc ->
  let w' := step toDateString v w (EvAttendance ty now shot) in
  exists r : AttendanceRecord,
    type r = ty
    /\ id r = user_id u
    /\ attendanceRecords (comp w') = attendanceRecords (comp w) ++ [r]
    /\ localRecords (browser w') = Some (attendanceRecords (comp w) ++ [r]).
Proof.
  intros Hu Hloc w'.
  destruct (attendance_appends v w ty now shot u loc Hu Hloc)
    as (r & (Hid & _ & Hty & _) & Har & Hlr & _).
  exists r. repeat split; assumption.
Qed.

(** *** The two per-user filters *)

(** The flag that the mount effect computes: a check-in of the stored
    user, dated today, is among the stored records. *)
Lemma mount_hasCheckedIn (b : Browser) (now : Z) (geo : bool) (u : User) :
  localUser b = Some u ->
  hasCheckedIn (comp (mount toDateString b now geo)) =
  existsb (isTodaysCheckIn toDateString u (toDateString now)) (ledger b).
Proof.
  intros Hu. destruct b as [lu lr src ts pa]. simpl in Hu. subst lu.
  unfold mount, useEffect, ledger, getCurrentLocation; simpl.
  destruct lr as [records |]; destruct geo; simpl; try reflexivity.
  all: induction records as [| r records IH]; simpl; [reflexivity |];
    destruct (isTodaysCheckIn toDateString u (toDateString now) r);
    simpl; [reflexivity | exact IH].
Qed.

Lemma filter_app_foreign {A : Type} (f : A -> bool) (l : list A) (x : A) :
  f x = false -> filter f (l ++ [x]) = filter f l.
Proof.
  intros H. rewrite filter_app. simpl. rewrite H. apply app_nil_r.
Qed.

Lemma existsb_filter {A : Type} (p q : A -> bool) (l : list A) :
  existsb (fun x => p x && q x) l = existsb q (filter p l).
Proof.
  induction l as [| x l IH]; simpl; [reflexivity |].
  destruct (p x); simpl; rewrite IH; reflexivity.
Qed.

(** Two ledgers that hold the same records of the stored user, in the
    same order, give that user the same flag and the same history. *)
Lemma same_own_records_same_views (b : Browser) (u : User)
  (l1 l2 : list AttendanceRecord) (now : Z) (geo : bool) :
  localUser b = Some u ->
  filter (fun r => String.eqb (id r) (user_id u)) l1 =
  filter (fun r => String.eqb (id r) (user_id u)) l2 ->
  hasCheckedIn (comp (mount toDateString (storeRecords (Some l1) b) now geo)) =
  hasCheckedIn (comp (mount toDateString (storeRecords (Some l2) b) now geo))
  /\ History_rows (storeRecords (Some l1) b) =
     History_rows (storeRecords (Some l2) b).
Proof.
  intros Hu Hsame. split.
  - rewrite !(mount_hasCheckedIn _ now geo u) by exact Hu.
    unfold ledger; simpl.
    assert (E : forall l,
               existsb (isTodaysCheckIn toDateString u (toDateString now)) l =
               existsb (fun r =>
                          String.eqb (toDateString (timestamp r))
                            (toDateString now)
                          && RecordType_eqb (type r) check_in)
                 (filter (fun r => String.eqb (id r) (user_id u)) l)).
    { intros l. rewrite <- existsb_filter.
      induction l as [| r l IH]; simpl; [reflexivity |].
      rewrite IH. unfold isTodaysCheckIn. now rewrite andb_assoc. }
    now rewrite !E, Hsame.
  - unfold History_rows, History_userRecords; simpl. rewrite Hu.
    now rewrite Hsame.
Qed.

(** C9: a record of another user changes neither the flag that the
    mount effect computes for the stored user, nor the records and rows
    that the history page shows. *)
Theorem foreign_record_does_not_interfere (b : Browser) (u : User)
  (records : list AttendanceRecord) (r : AttendanceRecord)
  (now : Z) (geo : bool) :
  localUser b = Some u ->
  id r <> user_id u ->
  let before := storeRecords (Some records) b in
  let after := storeRecords (Some (records ++ [r])) b in
  hasCheckedIn (comp (mount toDateString after now geo)) =
  hasCheckedIn (comp (mount toDateString before now geo))
  /\ History_userRecords after = History_userRecords before
  /\ History_rows after = History_rows before.
Proof.
  intros Hu Hid before after.
  apply String.eqb_neq in Hid.
  assert (Hhist : History_userRecords after = History_userRecords before).
  { unfold History_userRecords, after, before; simpl. rewrite Hu.
    apply filter_app_foreign. exact Hid. }
  split; [| split].
  - rewrite !(mount_hasCheckedIn _ now geo u) by exact Hu.
    unfold after, before, ledger; simpl.
    rewrite existsb_app. simpl.
    unfold isTodaysCheckIn at 2. rewrite Hid. simpl.
    now rewrite !orb_false_r.
  - exact Hhist.
  - unfold History_rows. now rewrite Hhist.
Qed.

(** C7: the history page shows the stored user's records, all of them
    and no others, newest first; after a check-in and a later check-out
    the check-out is the first row. *)
Theorem history_is_users_records_newest_first :
  (forall b : Browser, Permutation (History_rows b) (History_userRecords b))
  /\ (forall (b : Browser) (u : User),
         localUser b = Some u ->
         History_userRecords b =
         filter (fun r => String.eqb (id r) (user_id u)) (ledger b))
  /\ (forall (b : Browser) (u : User) (r : AttendanceRecord),
         localUser b = Some u ->
         (In r (History_rows b) <->
          In r (ledger b) /\ id r = user_id u))
  /\ (forall b : Browser, StronglySorted notOlder (History_rows b))
  /\ (forall (w : World) (u : User) (loc : Coord) (t1 t2 : Z)
        (shot1 shot2 : option string),
         currentUser (comp w) = Some u ->
         localUser (browser w) = Some u ->
         currentLocation (comp w) = Some loc ->
         attendanceRecords (comp w) = [] ->
         (t1 < t2)%Z ->
         let w' :=
           run toDateString Original w
             [EvAttendance check_in t1 shot1;
              EvAttendance check_out t2 shot2] in
         exists r_in r_out : AttendanceRecord,
           (type r_in = check_in /\ timestamp r_in = t1)
           /\ (type r_out = check_out /\ timestamp r_out = t2)
           /\ ledger (browser w') = [r_in; r_out]
           /\ History_rows (browser w') = [r_out; r_in]).
Proof.
  split; [| split; [| split; [| split]]].
  - intros b. apply Array_sort_perm.
  - intros b u Hu. unfold History_userRecords, ledger. rewrite Hu.
    now destruct (localRecords b).
  - intros b u r Hu. unfold History_rows. rewrite Array_sort_In.
    unfold History_userRecords, ledger. rewrite Hu.
    destruct (localRecords b) as [records |]; simpl.
    + rewrite filter_In, String.eqb_eq. reflexivity.
    + tauto.
  - intros b. apply Array_sort_byTimestampDesc_sorted.
  - intros w u loc t1 t2 shot1 shot2 Hu Hlu Hloc Hempty Hlt w'.
    unfold run in w'; simpl in w'.
    set (w1 := handleAttendance check_in t1 shot1 w) in *.
    destruct (attendance_appends Original w check_in t1 shot1 u loc Hu Hloc)
      as (r1 & (Hid1 & Hts1 & Hty1 & _) & Har1 & _ & Hu1 & Hloc1 & _ & _
          & Hlu1 & _).
    simpl step in Har1, Hu1, Hloc1, Hlu1. fold w1 in Har1, Hu1, Hloc1, Hlu1.
    destruct (attendance_appends Original w1 check_out t2 shot2 u loc Hu1 Hloc1)
      as (r2 & (Hid2 & Hts2 & Hty2 & _) & _ & Hlr2 & _ & _ & _ & _
          & Hlu2 & _).
    simpl step in Hlr2, Hlu2. fold w' in Hlr2, Hlu2.
    rewrite Har1, Hempty in Hlr2. simpl in Hlr2.
    exists r1, r2.
    split; [split; assumption |]. split; [split; assumption |].
    split; [unfold ledger; now rewrite Hlr2 |].
    unfold History_rows, History_userRecords.
    rewrite Hlu2, Hlu1, Hlu, Hlr2. simpl.
    rewrite Hid1, Hid2, String.eqb_refl. simpl.
    unfold byTimestampDesc. rewrite Hts1, Hts2.
    destruct (t2 - t1 <=? 0)%Z eqn:E; [apply Z.leb_le in E; lia |].
    reflexivity.
Qed.

End PageProperties.

(** * Concrete runs *)

(** C1, at a day with a check-in and a check-out: the handler leaves
    [hasCheckedIn] false after the check-out, as an open check-in would
    have it, but the mount effect computes true from the same ledger
    when the page is opened again that day. *)
Theorem flag_on_load_ignores_check_out (v : Revision) :
  map (fun r => (id r, type r, timestamp r)) (ledger (browser (afterWork v)))
  = [("U1"%string, check_in, morning); ("U1"%string, check_out, evening)]
  /\ hasCheckedIn (comp (afterWork v)) = false
  /\ spec_hasOpenCheckIn utcDateString "U1" (utcDateString night)
       (ledger (browser (afterWork v))) = false
  /\ hasCheckedIn
       (comp (step utcDateString v (afterWork v) (EvRemount night true)))
     = true
  /\ hasCheckedIn
       (comp (mount utcDateString
                (browserOf (Some alice)
                   (Some [recordOf "U1" morning check_in;
                          recordOf "U1" evening check_out]))
                night true))
     = true.
Proof.
  unfold afterWork, run, atDesk, onPosition; cbv zeta.
  rewrite calculateDistance_same.
  destruct v; repeat split; reflexivity.
Qed.

Lemma atDesk_reachable (v : Revision) : reachable utcDateString v atDesk.
Proof.
  change atDesk with
    (step utcDateString v lobby
       (EvPosition (latitude OFFICE_LOCATION) (longitude OFFICE_LOCATION))).
  apply reach_step, reach_mount.
Defined.

(** C2, as stated, fails on the page that has a user but no location:
    in both revisions the call appends no record and the ledger stays
    empty. *)
Lemma attendance_without_location_appends_nothing :
  currentUser (comp lobby) = Some alice
  /\ currentLocation (comp lobby) = None
  /\ ledger (browser (handleAttendance check_in morning None lobby)) = []
  /\ ledger (browser (handleAttendance_sheet check_in morning None lobby)) = []
  /\ ~ (exists r : AttendanceRecord,
          attendanceRecords (comp (handleAttendance check_in morning None lobby))
          = attendanceRecords (comp lobby) ++ [r])
  /\ ~ (exists r : AttendanceRecord,
          attendanceRecords
            (comp (handleAttendance_sheet check_in morning None lobby))
          = attendanceRecords (comp lobby) ++ [r]).
Proof.
  repeat split; try reflexivity; intros [r H]; discriminate H.
Qed.

Lemma attendance_without_location_is_refused_witness :
  currentLocation (comp lobby) = None
  /\ comp (step utcDateString Sheet lobby (EvAttendance check_out evening None))
     = comp lobby
  /\ ledger (browser (step utcDateString Sheet lobby
                        (EvAttendance check_out evening None)))
     = ledger (browser lobby).
Proof.
  split; [reflexivity |].
  pose proof (attendance_without_location_is_refused utcDateString Sheet lobby
                check_out evening None eq_refl) as H.
  cbv zeta in H. destruct H as (Hc & Hl & _).
  split; [exact Hc | exact Hl].
Defined.



Lemma attendance_ignores_order_witness :
  hasCheckedIn (comp checkedInPage) = true
  /\ currentUser (comp checkedInPage) = Some alice
  /\ currentLocation (comp checkedInPage) = Some OFFICE_LOCATION
  /\ exists r : AttendanceRecord,
       type r = check_in
       /\ id r = "U1"%string
       /\ attendanceRecords
            (comp (step utcDateString Sheet checkedInPage
                     (EvAttendance check_in evening None)))
          = attendanceRecords (comp checkedInPage) ++ [r].
Proof.
  split; [reflexivity |]. split; [reflexivity |]. split; [reflexivity |].
  pose proof (attendance_ignores_order utcDateString Sheet checkedInPage
                check_in evening None alice OFFICE_LOCATION eq_refl eq_refl)
    as H.
  cbv zeta in H. destruct H as (r & Hty & Hid & Har & _).
  exists r. split; [exact Hty |]. split; [exact Hid | exact Har].
Defined.

Lemma foreign_record_does_not_interfere_witness :
  localUser (browserOf (Some alice) None) = Some alice
  /\ id (recordOf "U2" morning check_in) <> user_id alice
  /\ History_rows
       (storeRecords
          (Some ([recordOf "U1" morning check_in]
                 ++ [recordOf "U2" morning check_in]))
          (browserOf (Some alice) None))
     = History_rows
         (storeRecords (Some [recordOf "U1" morning check_in])
            (browserOf (Some alice) None)).
Proof.
  assert (Hid : id (recordOf "U2" morning check_in) <> user_id alice)
    by (apply String.eqb_neq; reflexivity).
  split; [reflexivity |]. split; [exact Hid |].
  pose proof (foreign_record_does_not_interfere utcDateString
                (browserOf (Some alice) None) alice
                [recordOf "U1" morning check_in]
                (recordOf "U2" morning check_in) evening true
                eq_refl Hid) as H.
  cbv zeta in H. destruct H as (_ & _ & Hrows). exact Hrows.
Defined.

Lemma history_is_users_records_newest_first_witness :
  currentUser (comp atDesk) = Some alice
  /\ localUser (browser atDesk) = Some alice
  /\ currentLocation (comp atDesk) = Some OFFICE_LOCATION
  /\ attendanceRecords (comp atDesk) = []
  /\ (morning < evening)%Z
  /\ exists r_in r_out : AttendanceRecord,
       (type r_in = check_in /\ timestamp r_in = morning)
       /\ (type r_out = check_out /\ timestamp r_out = evening)
       /\ ledger (browser (afterWork Original)) = [r_in; r_out]
       /\ History_rows (browser (afterWork Original)) = [r_out; r_in].
Proof.
  split; [reflexivity |]. split; [reflexivity |]. split; [reflexivity |].
  split; [reflexivity |]. split; [reflexivity |].
  destruct (history_is_users_records_newest_first utcDateString)
    as (_ & _ & _ & _ & H).
  exact (H atDesk alice OFFICE_LOCATION morning evening None None
           eq_refl eq_refl eq_refl eq_refl eq_refl).
Defined.

(** * Further properties of the distance *)









(** * Further properties of the page *)

Section MorePageProperties.

Variable toDateString : Z -> string.



(** X6: the flag that the page starts with is set exactly when the
    ledger holds a check-in of the stored user dated today; check-outs,
    other users and other days play no part. *)
Theorem flag_on_load_iff_checked_in_today (b : Browser) (now : Z)
  (geo : bool) (u : User) :
  localUser b = Some u ->
  hasCheckedIn (comp (mount toDateString b now geo)) = true
  <-> exists r : AttendanceRecord,
        In r (ledger b)
        /\ id r = user_id u
        /\ toDateString (timestamp r) = toDateString now
        /\ type r = check_in.
Proof.
  intros Hu. rewrite (mount_hasCheckedIn toDateString b now geo u Hu).
  rewrite existsb_exists. unfold isTodaysCheckIn.
  split.
  - intros (r & Hin & H).
    apply andb_true_iff in H. destruct H as [H Hty].
    apply andb_true_iff in H. destruct H as [Hid Hday].
    apply String.eqb_eq in Hid, Hday.
    exists r. repeat split; try assumption.
    now destruct (type r).
  - intros (r & Hin & Hid & Hday & Hty).
    exists r. split; [exact Hin |].
    rewrite Hid, Hday, Hty, !String.eqb_refl. reflexivity.
Qed.

(** *** Which events write what *)

Lemma mount_without_user (b : Browser) (now : Z) (geo : bool) :
  localUser b = None ->
  mount toDateString b now geo =
  navigate "/" {| comp := initialComponent; browser := b |}.
Proof.
  intros H. unfold mount, useEffect. simpl. now rewrite H.
Qed.

Lemma mount_camera_off (b : Browser) (now : Z) (geo : bool) :
  isCameraActive (comp (mount toDateString b now geo)) = false.
Proof.
  destruct b as [[u |] [records |] src ts pa]; destruct geo; reflexivity.
Qed.

Lemma step_localUser (v : Revision) (w : World) (e : Event) :
  localUser (browser (step toDateString v w e)) = localUser (browser w)
  \/ localUser (browser (step toDateString v w e)) = None.
Proof.
  destruct e.
  - left. reflexivity.
  - left. reflexivity.
  - left. simpl. unfold getCurrentLocation. now destruct geo.
  - left. destruct v, video, media; reflexivity.
  - left. apply stopCamera_browser.
  - left.
    destruct (currentUser (comp w)) as [u |] eqn:Eu;
      [destruct (currentLocation (comp w)) as [loc |] eqn:El |].
    + now destruct (attendance_appends toDateString v w ty now shot u loc Eu El)
        as (r & _ & _ & _ & _ & _ & _ & _ & H & _).
    + now destruct (attendance_guard toDateString v w ty now shot
                      (or_intror El)) as (_ & _ & H).
    + now destruct (attendance_guard toDateString v w ty now shot
                      (or_introl Eu)) as (_ & _ & H).
  - right. reflexivity.
  - left. destruct v; [reflexivity |]. simpl. unfold viewHistory.
    simpl. apply stopCamera_browser.
  - left. simpl.
    set (w0 := match v with Original => w | Sheet => stopCamera w end).
    pose proof (mount_facts toDateString (browser w0) now geo)
      as (_ & _ & _ & _ & H).
    cbv zeta in H. rewrite H. subst w0.
    destruct v; [reflexivity | apply stopCamera_browser].
Qed.

Lemma non_attendance_keeps_records (v : Revision) (w : World) (e : Event) :
  isAttendance e = false ->
  localRecords (browser (step toDateString v w e)) = localRecords (browser w).
Proof.
  intros He.
  destruct (touchesLedgerOrLocation e) eqn:Ht.
  - destruct e; try discriminate.
    + reflexivity.
    + apply (remount_browser toDateString v w now geo).
  - apply (step_frame toDateString v w e Ht).
Qed.

(** X7: only the attendance handler writes the ledger: every other
    event, a new mount of the page included, leaves the
    [attendanceRecords] entry of [localStorage] exactly as it is, over
    runs of any length. *)
Theorem only_attendance_writes_the_ledger (v : Revision)
  (es : list Event) (w : World) :
  forallb (fun e => negb (isAttendance e)) es = true ->
  localRecords (browser (run toDateString v w es)) = localRecords (browser w).
Proof.
  revert w. induction es as [| e es IH]; intros w Hes; simpl.
  - reflexivity.
  - simpl in Hes. apply andb_true_iff in Hes. destruct Hes as [He Hes].
    rewrite (IH _ Hes). apply non_attendance_keeps_records.
    now destruct (isAttendance e).
Qed.

Lemma step_without_user (v : Revision) (w : World) (e : Event) :
  currentUser (comp w) = None ->
  attendanceRecords (comp w) = [] ->
  localUser (browser w) = None ->
  let w' := step toDateString v w e in
  currentUser (comp w') = None
  /\ attendanceRecords (comp w') = []
  /\ localUser (browser w') = None
  /\ localRecords (browser w') = localRecords (browser w).
Proof.
  intros Hu Ha Hl w'.
  assert (Hl' : localUser (browser w') = None).
  { destruct (step_localUser v w e) as [H | H]; fold w' in H;
      [now rewrite H | exact H]. }
  destruct (touchesLedgerOrLocation e) eqn:Ht.
  - destruct e; try discriminate Ht.
    + repeat split; assumption.
    + destruct (attendance_guard toDateString v w ty now shot (or_introl Hu))
        as (Hc & Hr & _).
      fold w' in Hc, Hr. rewrite Hc. repeat split; assumption.
    + pose proof (remount_browser toDateString v w now geo) as (Hr & _).
      fold w' in Hr.
      assert (E : comp w' = initialComponent).
      { subst w'. simpl.
        set (w0 := match v with Original => w | Sheet => stopCamera w end).
        rewrite mount_without_user; [reflexivity |].
        subst w0. destruct v; [exact Hl |].
        now rewrite (proj2 (stopCamera_browser w)). }
      rewrite E. repeat split; try reflexivity; assumption.
  - pose proof (step_frame toDateString v w e Ht) as (Hu' & _ & _ & _ & Ha' & Hr).
    fold w' in Hu', Ha', Hr.
    rewrite Hu', Ha'. repeat split; assumption.
Qed.

(** X8: a page opened without a stored user never records anything:
    whatever events follow, it has no user and no records, and both
    [localStorage] entries stay as they were. *)
Theorem page_without_user_records_nothing (v : Revision) (b : Browser)
  (now : Z) (geo : bool) (es : list Event) :
  localUser b = None ->
  let w := run toDateString v (mount toDateString b now geo) es in
  currentUser (comp w) = None
  /\ attendanceRecords (comp w) = []
  /\ localUser (browser w) = None
  /\ localRecords (browser w) = localRecords b.
Proof.
  intros Hb.
  assert (Hgen : forall (es : list Event) (w0 : World),
             currentUser (comp w0) = None ->
             attendanceRecords (comp w0) = [] ->
             localUser (browser w0) = None ->
             let w := run toDateString v w0 es in
             currentUser (comp w) = None
             /\ attendanceRecords (comp w) = []
             /\ localUser (browser w) = None
             /\ localRecords (browser w) = localRecords (browser w0)).
  { clear. induction es as [| e es IH]; intros w0 Hu Ha Hl; simpl.
    - repeat split; assumption.
    - destruct (step_without_user v w0 e Hu Ha Hl) as (Hu' & Ha' & Hl' & Hr').
      destruct (IH _ Hu' Ha' Hl') as (H1 & H2 & H3 & H4).
      repeat split; try assumption. now rewrite H4. }
  rewrite (mount_without_user b now geo Hb).
  apply (Hgen es (navigate "/" {| comp := initialComponent; browser := b |}));
    try reflexivity; exact Hb.
Qed.

(** *** The two revisions of the handler *)

(** X9: the revision with the camera sheet records what the first one
    records.  Called in the same state, the two handlers leave the same
    component, up to the sheet being closed, and the same two
    [localStorage] entries; they differ in the notices they show and in
    that the later one always detaches the camera stream. *)
Theorem revisions_record_the_same (ty : RecordType) (now : Z)
  (shot : option string) (w : World) :
  let a := handleAttendance ty now shot w in
  let b := handleAttendance_sheet ty now shot w in
  setIsSheetOpen false (comp a) = setIsSheetOpen false (comp b)
  /\ localRecords (browser a) = localRecords (browser b)
  /\ localUser (browser a) = localUser (browser b)
  /\ path (browser a) = path (browser b).
Proof.
  destruct w as [[cu cl di wi lo hc ar cam ce so] [lu lr src ts pa]].
  unfold handleAttendance, handleAttendance_sheet, stopCamera; simpl.
  destruct cu as [u |], cl as [loc |], cam, src, ty, wi as [[|] |],
    shot as [url |];
    simpl; try destruct (String.eqb url EmptyString);
    simpl; repeat split; reflexivity.
Qed.

(** *** Position *)

(** X10: a refresh of the position that fails does not clear the old
    one: location, distance and flag stay, loading ends, and the next
    attendance action is recorded at the old location with the old
    status. *)
Theorem failed_refresh_keeps_position (v : Revision) (w : World)
  (u : User) (loc : Coord) (ty : RecordType) (now : Z)
  (shot : option string) :
  currentUser (comp w) = Some u ->
  currentLocation (comp w) = Some loc ->
  let w1 :=
    run toDateString v w [EvRefreshLocation true; EvPositionError] in
  currentLocation (comp w1) = Some loc
  /\ distance (comp w1) = distance (comp w)
  /\ isWithinOffice (comp w1) = isWithinOffice (comp w)
  /\ isLoading (comp w1) = false
  /\ exists r : AttendanceRecord,
       attendanceRecords
         (comp (step toDateString v w1 (EvAttendance ty now shot)))
       = attendanceRecords (comp w) ++ [r]
       /\ location r = loc
       /\ status r = statusOf (isWithinOffice (comp w)).
Proof.
  intros Hu Hloc w1.
  assert (Hu1 : currentUser (comp w1) = Some u) by exact Hu.
  assert (Hl1 : currentLocation (comp w1) = Some loc) by exact Hloc.
  split; [exact Hl1 |]. split; [reflexivity |]. split; [reflexivity |].
  split; [reflexivity |].
  destruct (attendance_appends toDateString v w1 ty now shot u loc Hu1 Hl1)
    as (r & (_ & _ & _ & Hst & Hlo) & Har & _).
  exists r. split; [exact Har |]. split; [exact Hlo | exact Hst].
Qed.

(** *** Camera and photo *)

Lemma attendance_camera (v : Revision) (w : World) (ty : RecordType)
  (now : Z) (shot : option string) (u : User) (loc : Coord) :
  currentUser (comp w) = Some u ->
  currentLocation (comp w) = Some loc ->
  let w' := step toDateString v w (EvAttendance ty now shot) in
  exists r : AttendanceRecord,
    photoUrl r = (if isCameraActive (comp w) then capturePhoto shot
                  else photo_undefined)
    /\ attendanceRecords (comp w') = attendanceRecords (comp w) ++ [r]
    /\ localRecords (browser w') = Some (attendanceRecords (comp w) ++ [r])
    /\ isCameraActive (comp w')
       = isCameraActive (comp w) && negb (srcObject (browser w))
    /\ srcObject (browser w')
       = match v with
         | Original => srcObject (browser w) && negb (isCameraActive (comp w))
         | Sheet => false
         end
    /\ (v = Sheet -> isSheetOpen (comp w') = false).
Proof.
  intros Hu Hloc w'.
  exists {| id := user_id u;
            timestamp := now;
            type := ty;
            status := statusOf (isWithinOffice (comp w));
            location := loc;
            photoUrl := if isCameraActive (comp w) then capturePhoto shot
                        else photo_undefined |}.
  split; [reflexivity |].
  subst w'.
  destruct w as [[cu cl di wi lo hc ar cam ce so] [lu lr src ts pa]].
  simpl in Hu, Hloc. subst cu cl.
  destruct v, cam, src, ty, wi as [[|] |], shot as [url |];
    simpl; unfold handleAttendance, handleAttendance_sheet, stopCamera;
    simpl; try destruct (String.eqb url EmptyString);
    simpl; repeat split; try reflexivity; intros H; discriminate H.
Qed.




Lemma step_camera_stays_off (v : Revision) (w : World) (e : Event) :
  ledger_in_sync w ->
  isCameraActive (comp w) = false ->
  match e with
  | EvStartCamera video _ => Bool.eqb video (videoRendered (comp w)) = true
  | _ => True
  end ->
  let w' := step toDateString v w e in
  isCameraActive (comp w') = false
  /\ exists added : list AttendanceRecord,
       ledger (browser w') = ledger (browser w) ++ added
       /\ Forall (fun r => photoUrl r = photo_undefined) added.
Proof.
  intros Hsync Hoff He w'.
  assert (Hsame : localRecords (browser w') = localRecords (browser w) ->
                  exists added : list AttendanceRecord,
                    ledger (browser w') = ledger (browser w) ++ added
                    /\ Forall (fun r => photoUrl r = photo_undefined) added).
  { intros H. exists []. unfold ledger. rewrite H, app_nil_r.
    split; [reflexivity | constructor]. }
  destruct e.
  - split; [exact Hoff | now apply Hsame].
  - split; [exact Hoff | now apply Hsame].
  - split; [| apply Hsame; now apply non_attendance_keeps_records].
    subst w'. simpl. unfold getCurrentLocation. destruct geo; exact Hoff.
  - unfold videoRendered in He. rewrite Hoff in He.
    destruct video; [discriminate He |].
    split; [| apply Hsame; now apply non_attendance_keeps_records].
    subst w'. destruct v; exact Hoff.
  - split; [| apply Hsame; now apply non_attendance_keeps_records].
    subst w'. simpl. unfold stopCamera.
    destruct (srcObject (browser w)); [reflexivity | exact Hoff].
  - destruct (currentUser (comp w)) as [u |] eqn:Eu;
      [destruct (currentLocation (comp w)) as [loc |] eqn:El |].
    + destruct (attendance_camera v w ty now shot u loc Eu El)
        as (r & Hph & _ & Hlr & Hcam & _).
      fold w' in Hlr, Hcam. rewrite Hoff in Hph, Hcam.
      split; [exact Hcam |].
      exists [r]. split; [| constructor; [exact Hph | constructor]].
      unfold ledger at 1. rewrite Hlr. f_equal. apply Hsync.
      rewrite Eu. discriminate.
    + destruct (attendance_guard toDateString v w ty now shot (or_intror El))
        as (Hc & Hr & _).
      fold w' in Hc, Hr. rewrite Hc. split; [exact Hoff | now apply Hsame].
    + destruct (attendance_guard toDateString v w ty now shot (or_introl Eu))
        as (Hc & Hr & _).
      fold w' in Hc, Hr. rewrite Hc. split; [exact Hoff | now apply Hsame].
  - split; [| apply Hsame; now apply non_attendance_keeps_records].
    subst w'. destruct v; simpl; [exact Hoff |].
    unfold stopCamera. destruct (srcObject (browser w)); [reflexivity | exact Hoff].
  - split; [| apply Hsame; now apply non_attendance_keeps_records].
    subst w'. destruct v; simpl; [exact Hoff |].
    unfold stopCamera. destruct (srcObject (browser w)); [reflexivity | exact Hoff].
  - split; [apply mount_camera_off |].
    apply Hsame. now apply non_attendance_keeps_records.
Qed.

(** X12: the camera cannot be started from the page.  The video element
    that carries [videoRef] is rendered only while the camera is
    active, so [startCamera] always returns at its first test; the
    camera stays off for the whole life of the page and every record
    the page appends has no photo. *)
Theorem camera_never_starts (v : Revision) (b : Browser) (now : Z)
  (geo : bool) (es : list Event) :
  refsFollowRender toDateString v (mount toDateString b now geo) es = true ->
  let w := run toDateString v (mount toDateString b now geo) es in
  isCameraActive (comp w) = false
  /\ exists added : list AttendanceRecord,
       ledger (browser w) = ledger b ++ added
       /\ Forall (fun r => photoUrl r = photo_undefined) added.
Proof.
  assert (Hgen : forall (es : list Event) (w0 : World),
             reachable toDateString v w0 ->
             isCameraActive (comp w0) = false ->
             refsFollowRender toDateString v w0 es = true ->
             let w := run toDateString v w0 es in
             isCameraActive (comp w) = false
             /\ exists added : list AttendanceRecord,
                  ledger (browser w) = ledger (browser w0) ++ added
                  /\ Forall (fun r => photoUrl r = photo_undefined) added).
  { clear. induction es as [| e es IH]; intros w0 Hreach Hoff Hrun; simpl.
    - split; [exact Hoff |]. exists []. rewrite app_nil_r.
      split; [reflexivity | constructor].
    - simpl in Hrun. apply andb_true_iff in Hrun. destruct Hrun as [He Hrest].
      destruct (step_camera_stays_off v w0 e) as (Hoff1 & added1 & Hl1 & Hp1).
      + apply (reachable_invariants toDateString v w0 Hreach).
      + exact Hoff.
      + destruct e; try exact I. exact He.
      + destruct (IH (step toDateString v w0 e)) as (Hoff2 & added2 & Hl2 & Hp2);
          [now apply reach_step | exact Hoff1 | exact Hrest |].
        split; [exact Hoff2 |].
        exists (added1 ++ added2). rewrite Hl2, Hl1, app_assoc.
        split; [reflexivity | apply Forall_app; split; assumption]. }
  intros Hrun w.
  destruct (Hgen es (mount toDateString b now geo)) as (Hoff & added & Hl & Hp).
  - apply reach_mount.
  - apply mount_camera_off.
  - exact Hrun.
  - split; [exact Hoff |]. exists added. split; [| exact Hp].
    fold w in Hl. rewrite Hl. f_equal. unfold ledger.
    now rewrite (proj1 (proj2 (proj2 (proj2 (mount_facts toDateString b now geo))))).
Qed.

(** *** The buttons *)




(** *** The history page *)

Lemma insert_head_sorted (x : AttendanceRecord) (l : list AttendanceRecord) :
  StronglySorted notOlder (x :: l) -> insert byTimestampDesc x l = x :: l.
Proof.
  intros H. destruct l as [| y l]; [reflexivity |]. simpl.
  inversion H as [| ? ? _ Hall]; subst.
  inversion Hall as [| ? ? Hxy _]; subst.
  unfold notOlder in Hxy. unfold byTimestampDesc.
  destruct (timestamp y - timestamp x <=? 0)%Z eqn:E; [reflexivity |].
  apply Z.leb_gt in E. lia.
Qed.

Lemma Array_sort_sorted (l : list AttendanceRecord) :
  StronglySorted notOlder l -> Array_sort byTimestampDesc l = l.
Proof.
  induction l as [| x l IH]; intros H; [reflexivity |]. simpl.
  inversion H as [| ? ? Hl Hall]; subst.
  rewrite (IH Hl). now apply insert_head_sorted.
Qed.

Lemma insert_same_instant (t : Z) (x : AttendanceRecord)
  (l : list AttendanceRecord) :
  filter (fun r => (timestamp r =? t)%Z) (insert byTimestampDesc x l) =
  filter (fun r => (timestamp r =? t)%Z) (x :: l).
Proof.
  induction l as [| y l IH]; [reflexivity |]. simpl.
  unfold byTimestampDesc at 1.
  destruct (timestamp y - timestamp x <=? 0)%Z eqn:E; [reflexivity |].
  apply Z.leb_gt in E. simpl. simpl in IH. rewrite IH.
  destruct (timestamp x =? t)%Z eqn:Ex, (timestamp y =? t)%Z eqn:Ey;
    try reflexivity.
  apply Z.eqb_eq in Ex, Ey. lia.
Qed.

(** X14: the order of the rows is settled.  Sorting the rows again, as
    every render does, changes nothing, and records that bear the same
    timestamp stand in the order of the ledger. *)
Theorem history_rows_are_stable (b : Browser) :
  Array_sort byTimestampDesc (History_rows b) = History_rows b
  /\ forall t : Z,
       filter (fun r => (timestamp r =? t)%Z) (History_rows b) =
       filter (fun r => (timestamp r =? t)%Z) (History_userRecords b).
Proof.
  split.
  - apply Array_sort_sorted, Array_sort_byTimestampDesc_sorted.
  - intros t. unfold History_rows.
    induction (History_userRecords b) as [| x l IH]; [reflexivity |].
    simpl Array_sort. rewrite insert_same_instant. simpl. now rewrite IH.
Qed.

(** X15: what the handler records is what the history page shows next:
    for a reachable page of the stored user, the rows after an
    attendance action are the rows before it and the new record. *)
Theorem recorded_action_reaches_history (v : Revision) (w : World)
  (ty : RecordType) (now : Z) (shot : option string) (u : User)
  (loc : Coord) :
  reachable toDateString v w ->
  currentUser (comp w) = Some u ->
  localUser (browser w) = Some u ->
  currentLocation (comp w) = Some loc ->
  let w' := step toDateString v w (EvAttendance ty now shot) in
  exists r : AttendanceRecord,
    (type r = ty /\ timestamp r = now /\ location r = loc)
    /\ History_userRecords (browser w')
       = History_userRecords (browser w) ++ [r]
    /\ Permutation (History_rows (browser w'))
         (r :: History_rows (browser w))
    /\ In r (History_rows (browser w')).
Proof.
  intros Hreach Hu Hlu Hloc w'.
  destruct (reachable_invariants toDateString v w Hreach) as [_ Hsync].
  destruct (attendance_appends toDateString v w ty now shot u loc Hu Hloc)
    as (r & (Hid & Hts & Hty & _ & Hlo) & _ & Hlr & _ & _ & _ & _ & Hlu' & _).
  fold w' in Hlr, Hlu'.
  assert (Hsync' : attendanceRecords (comp w) = ledger (browser w))
    by (apply Hsync; rewrite Hu; discriminate).
  assert (Hrec : History_userRecords (browser w')
                 = History_userRecords (browser w) ++ [r]).
  { unfold History_userRecords. rewrite Hlu', Hlu, Hlr, Hsync'.
    rewrite filter_app. simpl. rewrite Hid, String.eqb_refl.
    unfold ledger. now destruct (localRecords (browser w)). }
  assert (Hperm : Permutation (History_rows (browser w'))
                    (r :: History_rows (browser w))).
  { unfold History_rows. rewrite Hrec.
    eapply perm_trans; [apply Array_sort_perm |].
    eapply perm_trans; [apply Permutation_sym, Permutation_cons_append |].
    apply perm_skip, Permutation_sym, Array_sort_perm. }
  exists r. split; [repeat split; assumption |].
  split; [exact Hrec |]. split; [exact Hperm |].
  apply (Permutation_in _ (Permutation_sym Hperm)). now left.
Qed.

(** X16: logging out hides the records without deleting them: the
    ledger entry is untouched, but the history page has no rows, and
    the attendance page, opened again, has no user, asks for no
    position, goes to the landing page and records nothing. *)
Theorem logout_hides_but_keeps_records (v : Revision) (w : World)
  (now : Z) (geo : bool) :
  let w1 := step toDateString v w EvLogout in
  let w2 := step toDateString v w1 (EvRemount now geo) in
  localRecords (browser w1) = localRecords (browser w)
  /\ History_rows (browser w1) = []
  /\ currentUser (comp w2) = None
  /\ isLoading (comp w2) = false
  /\ path (browser w2) = Some "/"%string
  /\ forall (ty : RecordType) (t : Z) (shot : option string),
       localRecords (browser (step toDateString v w2 (EvAttendance ty t shot)))
       = localRecords (browser w).
Proof.
  intros w1 w2.
  assert (Hr1 : localRecords (browser w1) = localRecords (browser w))
    by now apply non_attendance_keeps_records.
  assert (Hu1 : localUser (browser w1) = None) by reflexivity.
  assert (Hr2 : localRecords (browser w2) = localRecords (browser w))
    by (rewrite <- Hr1; now apply non_attendance_keeps_records).
  assert (Hw2 : exists b2 : Browser,
             localUser b2 = None
             /\ w2 = navigate "/" {| comp := initialComponent; browser := b2 |}).
  { subst w2. simpl step.
    set (w0 := match v with Original => w1 | Sheet => stopCamera w1 end).
    exists (browser w0). assert (H : localUser (browser w0) = None).
    { subst w0. destruct v; [exact Hu1 |].
      now rewrite (proj2 (stopCamera_browser w1)). }
    split; [exact H | now apply mount_without_user]. }
  destruct Hw2 as (b2 & Hb2 & E2).
  split; [exact Hr1 |].
  split; [unfold History_rows, History_userRecords; now rewrite Hu1 |].
  split; [now rewrite E2 |]. split; [now rewrite E2 |].
  split; [now rewrite E2 |].
  intros ty t shot.
  destruct (attendance_guard toDateString v w2 ty t shot) as (_ & H & _).
  - left. now rewrite E2.
  - now rewrite H.
Qed.

(** *** Notices *)

(** X17: the notice that follows a recorded check-in tells the status
    written into the record: success with a "present" record, a warning
    with an "absent" one.  A check-out is always announced as a success,
    whatever its status. *)
Theorem notice_tells_the_status (v : Revision) (w : World)
  (ty : RecordType) (now : Z) (shot : option string) (u : User)
  (loc : Coord) :
  currentUser (comp w) = Some u ->
  currentLocation (comp w) = Some loc ->
  let w' := step toDateString v w (EvAttendance ty now shot) in
  exists r : AttendanceRecord,
    attendanceRecords (comp w') = attendanceRecords (comp w) ++ [r]
    /\ hd_error (toasts (browser w'))
       = Some match ty, status r with
              | check_in, present =>
                  (toast_success, "You have been marked present"%string)
              | check_in, absent =>
                  (toast_warning,
                   "You are outside the office. Marked as absent."%string)
              | check_out, _ =>
                  (toast_success, "You have checked out successfully"%string)
              end.
Proof.
  intros Hu Hloc w'.
  exists {| id := user_id u;
            timestamp := now;
            type := ty;
            status := statusOf (isWithinOffice (comp w));
            location := loc;
            photoUrl := if isCameraActive (comp w) then capturePhoto shot
                        else photo_undefined |}.
  subst w'.
  destruct w as [[cu cl di wi lo hc ar cam ce so] [lu lr src ts pa]].
  simpl in Hu, Hloc. subst cu cl.
  destruct v, cam, src, ty, wi as [[|] |], shot as [url |];
    simpl; unfold handleAttendance, handleAttendance_sheet, stopCamera;
    simpl; try destruct (String.eqb url EmptyString);
    simpl; split; reflexivity.
Qed.

End MorePageProperties.

(** * The further properties at concrete inputs *)



Lemma flag_on_load_iff_checked_in_today_witness :
  localUser (browserOf (Some alice) (Some [recordOf "U1" morning check_in]))
  = Some alice
  /\ (hasCheckedIn
        (comp (mount utcDateString
                 (browserOf (Some alice)
                    (Some [recordOf "U1" morning check_in]))
                 evening true)) = true
      <-> exists r : AttendanceRecord,
            In r (ledger (browserOf (Some alice)
                            (Some [recordOf "U1" morning check_in])))
            /\ id r = user_id alice
            /\ utcDateString (timestamp r) = utcDateString evening
            /\ type r = check_in).
Proof.
  split; [reflexivity |].
  exact (flag_on_load_iff_checked_in_today utcDateString
           (browserOf (Some alice) (Some [recordOf "U1" morning check_in]))
           evening true alice eq_refl).
Defined.

Lemma only_attendance_writes_the_ledger_witness :
  forallb (fun e => negb (isAttendance e))
    [EvPositionError; EvLogout; EvRemount night true] = true
  /\ localRecords
       (browser (run utcDateString Sheet checkedInPage
                   [EvPositionError; EvLogout; EvRemount night true]))
     = localRecords (browser checkedInPage).
Proof.
  split; [reflexivity |].
  exact (only_attendance_writes_the_ledger utcDateString Sheet
           [EvPositionError; EvLogout; EvRemount night true]
           checkedInPage eq_refl).
Defined.

Lemma page_without_user_records_nothing_witness :
  localUser (browserOf None (Some [recordOf "U1" morning check_in])) = None
  /\ attendanceRecords
       (comp (run utcDateString Original
                (mount utcDateString
                   (browserOf None (Some [recordOf "U1" morning check_in]))
                   evening true)
                [EvPosition (latitude OFFICE_LOCATION)
                   (longitude OFFICE_LOCATION);
                 EvAttendance check_out evening None]))
     = [].
Proof.
  split; [reflexivity |].
  pose proof (page_without_user_records_nothing utcDateString Original
                (browserOf None (Some [recordOf "U1" morning check_in]))
                evening true
                [EvPosition (latitude OFFICE_LOCATION)
                   (longitude OFFICE_LOCATION);
                 EvAttendance check_out evening None] eq_refl) as H.
  cbv zeta in H. exact (proj1 (proj2 H)).
Defined.

Lemma failed_refresh_keeps_position_witness :
  currentUser (comp atDesk) = Some alice
  /\ currentLocation (comp atDesk) = Some OFFICE_LOCATION
  /\ exists r : AttendanceRecord,
       attendanceRecords
         (comp (step utcDateString Original
                  (run utcDateString Original atDesk
                     [EvRefreshLocation true; EvPositionError])
                  (EvAttendance check_in morning None)))
       = attendanceRecords (comp atDesk) ++ [r]
       /\ location r = OFFICE_LOCATION.
Proof.
  split; [reflexivity |]. split; [reflexivity |].
  pose proof (failed_refresh_keeps_position utcDateString Original atDesk
                alice OFFICE_LOCATION check_in morning None eq_refl eq_refl)
    as H.
  cbv zeta in H. destruct H as (_ & _ & _ & _ & r & Har & Hlo & _).
  exists r. split; [exact Har | exact Hlo].
Defined.


Lemma camera_never_starts_witness :
  refsFollowRender utcDateString Sheet
    (mount utcDateString (browserOf (Some alice) None) morning true)
    [EvStartCamera false None;
     EvPosition (latitude OFFICE_LOCATION) (longitude OFFICE_LOCATION);
     EvAttendance check_in morning (Some "data:image/jpeg;base64,AAAA"%string)]
  = true
  /\ isCameraActive
       (comp (run utcDateString Sheet
                (mount utcDateString (browserOf (Some alice) None)
                   morning true)
                [EvStartCamera false None;
                 EvPosition (latitude OFFICE_LOCATION)
                   (longitude OFFICE_LOCATION);
                 EvAttendance check_in morning
                   (Some "data:image/jpeg;base64,AAAA"%string)]))
     = false.
Proof.
  split; [reflexivity |].
  pose proof (camera_never_starts utcDateString Sheet
                (browserOf (Some alice) None) morning true
                [EvStartCamera false None;
                 EvPosition (latitude OFFICE_LOCATION)
                   (longitude OFFICE_LOCATION);
                 EvAttendance check_in morning
                   (Some "data:image/jpeg;base64,AAAA"%string)]
                eq_refl) as H.
  cbv zeta in H. exact (proj1 H).
Defined.


Lemma recorded_action_reaches_history_witness :
  reachable utcDateString Original atDesk
  /\ currentUser (comp atDesk) = Some alice
  /\ localUser (browser atDesk) = Some alice
  /\ currentLocation (comp atDesk) = Some OFFICE_LOCATION
  /\ exists r : AttendanceRecord,
       type r = check_in
       /\ In r (History_rows
                  (browser (step utcDateString Original atDesk
                              (EvAttendance check_in morning None)))).
Proof.
  split; [apply atDesk_reachable |]. split; [reflexivity |].
  split; [reflexivity |]. split; [reflexivity |].
  pose proof (recorded_action_reaches_history utcDateString Original atDesk
                check_in morning None alice OFFICE_LOCATION
                (atDesk_reachable Original) eq_refl eq_refl eq_refl) as H.
  cbv zeta in H. destruct H as (r & (Hty & _) & _ & _ & Hin).
  exists r. split; [exact Hty | exact Hin].
Defined.

Lemma notice_tells_the_status_witness :
  currentUser (comp atDesk) = Some alice
  /\ currentLocation (comp atDesk) = Some OFFICE_LOCATION
  /\ exists r : AttendanceRecord,
       hd_error
         (toasts (browser (step utcDateString Sheet atDesk
                             (EvAttendance check_out evening None))))
       = Some match status r with
              | present | absent =>
                  (toast_success, "You have checked out successfully"%string)
              end.
Proof.
  split; [reflexivity |]. split; [reflexivity |].
  pose proof (notice_tells_the_status utcDateString Sheet atDesk check_out
                evening None alice OFFICE_LOCATION eq_refl eq_refl) as H.
  cbv zeta in H. destruct H as (r & _ & Ht).
  exists r. rewrite Ht. now destruct (status r).
Defined.
